(** * gpkg2osm: a shallow embedding of [cmd/main.go]

    The development follows the source file top to bottom: the layer
    descriptor ([ExportLayer]) with its query and validation, the
    conversion loop of [main], the row reader [getResults], the layer
    discovery [getGeoPackageLayers] and the geometry blob header parser
    [parseGpkgGeom].  Go strings are byte strings and are modelled by
    [string]; Go maps are modelled by stdpp's [gmap]. *)

From Stdlib Require Import ZArith NArith QArith Qround String Ascii List Bool Lia.
From Stdlib.Strings Require Import Byte.
From stdpp Require Import base option list strings gmap fin_maps pretty.

Import ListNotations.
Local Open Scope string_scope.
Local Open Scope Z_scope.

(** ** Go's [strings] package, as far as the program uses it *)

Module strings.

(** [strings.ToLower] on one byte.  Only the ASCII letters are mapped:
    the program searches the lowered text for the ASCII needle
    ["osm tag"], and no rune outside ASCII lower-cases to a letter of
    that needle, so bytes above 127 are left as they are. *)
Definition lower_byte (c : ascii) : ascii :=
  let n := nat_of_ascii c in
  if ((65 <=? n)%nat && (n <=? 90)%nat)%bool
  then ascii_of_nat (n + 32) else c.

Fixpoint ToLower (s : string) : string :=
  match s with
  | EmptyString => EmptyString
  | String c r => String (lower_byte c) (ToLower r)
  end.

(** [strings.HasPrefix s p]. *)
Fixpoint HasPrefix (s p : string) {struct p} : bool :=
  match p, s with
  | EmptyString, _ => true
  | String _ _, EmptyString => false
  | String a p', String b s' =>
      if Ascii.eqb a b then HasPrefix s' p' else false
  end.

(** [strings.Contains s sub]: [sub] starts at some offset of [s]. *)
Fixpoint Contains (s sub : string) : bool :=
  if HasPrefix s sub then true
  else match s with
       | EmptyString => false
       | String _ r => Contains r sub
       end.

(** [strings.Join elems sep]. *)
Fixpoint Join (elems : list string) (sep : string) : string :=
  match elems with
  | [] => ""
  | [e] => e
  | e :: rest => e ++ sep ++ Join rest sep
  end.

End strings.

(** ** Geometries of [go-geom]

    [geom.T] is an interface; the values the WKB decoder can hand back
    are the seven concrete kinds below.  A coordinate is a pair of
    float64 values; the program never computes with them, and a finite
    float64 is kept as the rational number it denotes. *)

Record Coord := mkCoord { coord_x : Q; coord_y : Q }.

#[warnings="-register-all"]
Inductive geomT :=
| Point (c : Coord)
| LineString (cs : list Coord)
| Polygon (rings : list (list Coord))
| MultiPoint (ps : list Coord)
| MultiLineString (ls : list (list Coord))
| MultiPolygon (polys : list (list (list Coord)))
| GeometryCollection (gs : list geomT).

(** ** The layer descriptor *)

(** [sql.NullBool]: [None] is the SQL NULL. *)
Definition NullBool := option bool.

Record ExportLayer := mkExportLayer {
  Name : string;            (* also the table name *)
  Tags : list string;       (* columns that map directly to an OSM tag *)
  OSMJsonField : bool;      (* the layer has the "osm_tags" JSON column *)
  GeometryField : string;   (* name of the geometry column *)
  GeometryType : string;
  SRS : Z;                  (* int32 *)
  ZFlag : NullBool;
  MFlag : NullBool
}.

(** The package-level table [valid_geoms]: geometry type names the
    program allows, each mapped to an empty geometry of its kind. *)
Definition valid_geoms : gmap string geomT :=
  <["MULTIPOLYGON" := MultiPolygon []]>
  (<["POLYGON" := Polygon []]>
  (<["MULTILINESTRING" := MultiLineString []]>
  (<["LINESTRING" := LineString []]>
  (<["POINT" := Point (mkCoord 0 0)]> ∅)))).

(** Go's [error] is [nil] or a message. *)
Definition error := option string.

(** [ExportLayer.Validate]: the three checks in source order. *)
Definition Validate (l : ExportLayer) : error :=
  if (negb (OSMJsonField l) && (length (Tags l) =? 0)%nat)%bool
  then Some "no OSM tags"
  else if negb (SRS l =? 4326)
  then Some "invalid SRS, must be EPSG:4326"
  else match valid_geoms !! GeometryType l with
       | None => Some "invalid geometry type"
       | Some _ => None
       end.

(** The five names the table holds. *)
Definition valid_geom_names : list string :=
  ["MULTIPOLYGON"; "POLYGON"; "MULTILINESTRING"; "LINESTRING"; "POINT"].

(** ** The query of a layer *)

Definition newline : string := String (ascii_of_nat 10) EmptyString.
Definition tab : string := String (ascii_of_nat 9) EmptyString.

(** [ExportLayer.Query]: the SQL text, built as the source builds it
    (the [Sprintf] calls written out as concatenations; the raw string
    literal of the source spans three lines, the last two indented by
    one tab). *)
Definition Query (l : ExportLayer) : string :=
  if (OSMJsonField l && (length (Tags l) =? 0)%nat)%bool
  then "SELECT " +:+ GeometryField l +:+ ", osm_tags FROM " +:+ Name l
  else
    let cols := flat_map (λ t, ["'" +:+ t +:+ "'"; t]) (Tags l) in
    let json_tags := "json_object(" +:+ strings.Join cols ", " +:+ ")" in
    let json_tags :=
      if OSMJsonField l
      then "json_patch(" +:+ json_tags +:+ ", osm_tags)"
      else json_tags in
    "SELECT " +:+ GeometryField l
      +:+ ", COALESCE((SELECT json_group_object(key, value)"
      +:+ newline +:+ tab +:+ "FROM json_each(" +:+ json_tags +:+ ")"
      +:+ newline +:+ tab +:+ "WHERE value IS NOT NULL), '{}') AS osm_tags FROM "
      +:+ Name l.

(** The same query as a syntax tree: which of the two shapes the text
    has, and what stands in the holes.  [render] prints a tree back to
    the text, and [Query_render] shows that the tree of a layer is a
    reading of the text [Query] returns. *)
Inductive JsonExpr :=
| JsonObject (cols : list string)   (* json_object('c1', c1, 'c2', c2, ...) *)
| JsonPatch (target : JsonExpr).    (* json_patch(target, osm_tags) *)

Inductive TagsExpr :=
| OsmTagsColumn                     (* osm_tags *)
| NotNullMembers (e : JsonExpr).    (* COALESCE((SELECT json_group_object ...
                                       FROM json_each(e) WHERE value IS NOT NULL), '{}') *)

Record SelectStmt := mkSelect {
  sel_geometry : string;
  sel_tags : TagsExpr;
  sel_table : string
}.

Definition QueryPlan (l : ExportLayer) : SelectStmt :=
  if (OSMJsonField l && (length (Tags l) =? 0)%nat)%bool
  then mkSelect (GeometryField l) OsmTagsColumn (Name l)
  else
    let obj := JsonObject (Tags l) in
    mkSelect (GeometryField l)
      (NotNullMembers (if OSMJsonField l then JsonPatch obj else obj))
      (Name l).

Fixpoint render_json (e : JsonExpr) : string :=
  match e with
  | JsonObject cols =>
      "json_object("
        +:+ strings.Join (flat_map (λ t, ["'" +:+ t +:+ "'"; t]) cols) ", "
        +:+ ")"
  | JsonPatch target => "json_patch(" +:+ render_json target +:+ ", osm_tags)"
  end.

Definition render (q : SelectStmt) : string :=
  match sel_tags q with
  | OsmTagsColumn =>
      "SELECT " +:+ sel_geometry q +:+ ", osm_tags FROM " +:+ sel_table q
  | NotNullMembers e =>
      "SELECT " +:+ sel_geometry q
        +:+ ", COALESCE((SELECT json_group_object(key, value)"
        +:+ newline +:+ tab +:+ "FROM json_each(" +:+ render_json e +:+ ")"
        +:+ newline +:+ tab +:+ "WHERE value IS NOT NULL), '{}') AS osm_tags FROM "
        +:+ sel_table q
  end.

(** ** What the query computes on one row

    The query runs inside SQLite; the values below are the ones its
    JSON functions see and return.  A tag value is a JSON scalar; a
    JSON object is a finite map from member names to values (member
    names distinct, member order immaterial).

    The model covers the layers and rows on which the query reads the
    row as it is written.  The source splices the tag column names
    into the text unquoted: a name that is no SQL identifier or is a
    keyword ([from], [order], a name with a colon) makes the statement
    fail, and a name that [json_each] has as a column of its own
    ([key], [value], [type], [id], [path], ...) is not read from the
    row; such layers are outside the model.  So are cells that are
    REAL or BLOB, nested JSON values, and an [osm_tags] field whose
    text is no JSON object.  A number is kept as an integer; Go holds
    it as a float64. *)

Inductive jval :=
| JNull
| JBool (b : bool)
| JNumber (n : Z)
| JString (s : string).

Global Instance jval_eq_dec : EqDecision jval.
Proof. solve_decision. Defined.

(** A cell of a named tag column. *)
Inductive sqlval :=
| SqlNull
| SqlInteger (n : Z)
| SqlText (s : string).

(** One row of a layer's table: the geometry column (a NULL scans into
    an empty byte slice), the cells of the other columns by name, and
    the [osm_tags] column, which is NULL ([None]) or holds the text of
    a flat JSON object. *)
Record TableRow := mkRow {
  row_geom : list byte;
  row_cell : string → sqlval;
  row_osm_tags : option (gmap string jval)
}.

(** How [json_object] turns a cell into a member value. *)
Definition json_of_sql (v : sqlval) : jval :=
  match v with
  | SqlNull => JNull
  | SqlInteger n => JNumber n
  | SqlText s => JString s
  end.

(** [json_object('c1', c1, ...)]: one member per listed column, with
    the cell of that column, for column names that SQLite resolves to
    the columns of the layer's table (see above).  The listed columns
    are taken to be distinct, as the primary key (table_name,
    column_name) of [gpkg_data_columns] makes them. *)
Definition json_object (cols : list string) (row : TableRow) : gmap string jval :=
  fold_left (λ o t, <[t := json_of_sql (row_cell row t)]> o) cols ∅.

(** One step of the merge patch of RFC 7396 on a flat object: a null
    member of the patch removes the name from the target, any other
    member sets it. *)
Definition patch_member (k : string) (v : jval) (target : gmap string jval)
  : gmap string jval :=
  match v with
  | JNull => delete k target
  | _ => <[k := v]> target
  end.

(** [json_patch(T, P)]: NULL when an argument is NULL, else the merge
    patch, member of [P] by member. *)
Definition json_patch (target patch : option (gmap string jval))
  : option (gmap string jval) :=
  match target, patch with
  | Some t, Some p => Some (map_fold patch_member t p)
  | _, _ => None
  end.

Fixpoint eval_json (e : JsonExpr) (row : TableRow) : option (gmap string jval) :=
  match e with
  | JsonObject cols => Some (json_object cols row)
  | JsonPatch target => json_patch (eval_json target row) (row_osm_tags row)
  end.

(** The [value] column of [json_each] is an SQL value: JSON [true] and
    [false] come out as the integers 1 and 0. *)
Definition json_each_value (v : jval) : jval :=
  match v with
  | JBool b => JNumber (if b then 1 else 0)
  | _ => v
  end.

(** [COALESCE((SELECT json_group_object(key, value) FROM json_each(e)
    WHERE value IS NOT NULL), '{}')]: the members of [e] whose value is
    not null, collected into a new object; a NULL [e] has no members. *)
Definition not_null_members (e : option (gmap string jval)) : gmap string jval :=
  match e with
  | None => ∅
  | Some o => json_each_value <$> filter (λ kv, kv.2 ≠ JNull) o
  end.

(** The second column of the result row: [None] is NULL. *)
Definition eval_tags (e : TagsExpr) (row : TableRow) : option (gmap string jval) :=
  match e with
  | OsmTagsColumn => row_osm_tags row
  | NotNullMembers e => Some (not_null_members (eval_json e row))
  end.

(** ** Features and the entities written to the output *)

(** The data of one row that reaches the output: [Feature] of the
    source.  [Tags] is Go's [map[string]any] filled by
    [json.Unmarshal]; a JSON null is stored as a nil value under its
    key, here [JNull]. *)
Module Feature.
Record t := mk {
  Layer : ExportLayer;
  Tags : gmap string jval;
  G : geomT
}.
End Feature.

(** The three kinds of OSM primitives. *)
Inductive EntityKind := NodeKind | WayKind | RelationKind.

Global Instance EntityKind_eq_dec : EqDecision EntityKind.
Proof. solve_decision. Defined.

(** An entity handed to the PBF writer: what the program sets on it. *)
Record Entity := mkEntity {
  ent_kind : EntityKind;
  ent_id : Z;
  ent_geometry : option geomT;
  ent_tags : gmap string jval
}.

(** [entity.NewWay(id)], [e.SetGeometry(...)], [e.SetTags(...)]. *)
Definition NewWay (id : Z) : Entity := mkEntity WayKind id None ∅.

Definition SetGeometry (e : Entity) (g : geomT) : Entity :=
  mkEntity (ent_kind e) (ent_id e) (Some g) (ent_tags e).

Definition SetTags (e : Entity) (tags : gmap string jval) : Entity :=
  mkEntity (ent_kind e) (ent_id e) (ent_geometry e) tags.

(** The body of the inner loop of [main] for one feature [r]: the list
    of entities passed to [pbf.WriteEntity], in order.  The type switch
    has one case, for the four line and polygon kinds; every other
    geometry writes nothing. *)
Definition writeFeature (r : Feature.t) : list Entity :=
  match Feature.G r with
  | MultiLineString _ | MultiPolygon _ | LineString _ | Polygon _ =>
      [SetTags (SetGeometry (NewWay 1) (Feature.G r)) (Feature.Tags r)]
  | _ => []
  end.

(** The inner loop over the results of one layer, and the outer loop
    over the layers' results. *)
Definition writeResults (results : list Feature.t) : list Entity :=
  flat_map writeFeature results.

Definition writeLayers (layers : list (list Feature.t)) : list Entity :=
  flat_map writeResults layers.

(** How many entities of a kind a run has written. *)
Definition count_kind (k : EntityKind) (out : list Entity) : nat :=
  length (filter (λ e, ent_kind e = k) out).



(** ** Results of code that can return an error or panic *)

(** What stops a goroutine without a returned error: the two run-time
    panics a byte slice can raise, and any other panic, such as one
    raised inside a library call, by its message. *)
Inductive panic :=
| IndexOutOfRange (i len : nat)       (* index out of range [i] with length len *)
| SliceBoundsOutOfRange (i len : nat) (* slice bounds out of range [i:len] *)
| OtherPanic (msg : string).

Inductive result (A : Type) :=
| Ok (a : A)          (* a value and a nil error *)
| Err (msg : string)  (* a non-nil error *)
| Panic (p : panic).  (* the call did not return *)

Arguments Ok {A} a.
Arguments Err {A} msg.
Arguments Panic {A} p.

Definition bind {A B} (r : result A) (k : A → result B) : result B :=
  match r with
  | Ok a => k a
  | Err msg => Err msg
  | Panic p => Panic p
  end.

Notation "x <- r ;;; k" := (bind r (λ x, k))
  (at level 100, r at next level, right associativity, only parsing).

(** [data[i]] and [data[i:]] on a byte slice. *)
Definition index (data : list byte) (i : nat) : result byte :=
  match data !! i with
  | Some b => Ok b
  | None => Panic (IndexOutOfRange i (length data))
  end.

Definition slice_from (data : list byte) (i : nat) : result (list byte) :=
  if (i <=? length data)%nat then Ok (drop i data)
  else Panic (SliceBoundsOutOfRange i (length data)).

(** ** The geometry blob header *)

Section gpkg_geom.

(** [wkb.Unmarshal] of [go-geom]: the decoder of the payload. *)
Variable Unmarshal : list byte → result geomT.

(** The envelope indicator: [(data[3] >> 1) & 0b111]. *)
Definition envelope_indicator (flags : byte) : N :=
  N.land (N.shiftr (Byte.to_N flags) 1) 7.

(** The condition of the first [if]: [data[0] != 'G' && data[1] != 'P'],
    with Go's short-circuit evaluation. *)
Definition bad_header (data : list byte) : result bool :=
  b0 <- index data 0 ;;;
  if negb (Byte.eqb b0 "G"%byte)
  then (b1 <- index data 1 ;;; Ok (negb (Byte.eqb b1 "P"%byte)))
  else Ok false.

(** The [switch] on the indicator: the envelope size, or the error of
    the [default] case. *)
Definition envelope_size (ind : N) : result nat :=
  match ind with
  | 1%N => Ok 32%nat
  | 2%N | 3%N => Ok 48%nat
  | 4%N => Ok 64%nat
  | _ => Err ("invalid envelope type: " +:+ pretty ind)
  end.

Definition parseGpkgGeom (data : list byte) : result geomT :=
  bad <- bad_header data ;;;
  if bad : bool then Err "bad header"
  else
    flags <- index data 3 ;;;
    env_size <- envelope_size (envelope_indicator flags) ;;;
    payload <- slice_from data (8 + env_size) ;;;
    Unmarshal payload.

(** ** Reading the rows of a layer *)

(** What the two scanned columns of a result row are: the geometry
    bytes and the tags column of the layer's query. *)
Definition scan (l : ExportLayer) (row : TableRow)
  : list byte * option (gmap string jval) :=
  (row_geom row, eval_tags (sel_tags (QueryPlan l)) row).

(** The tags of a row as [getResults] stores them in the feature:
    [None] when the tags column is NULL and the row is skipped; else
    the object [json.Unmarshal] put into the map. *)
Definition rowTags (l : ExportLayer) (row : TableRow) : option (gmap string jval) :=
  (scan l row).2.

(** [getResults]: the loop over the rows, [res] the features appended
    so far.  A row with NULL tags, with no geometry bytes or with a
    geometry error is skipped; a panic ends the run.  The rows are
    those of the model above: the statement is taken to start (the
    source returns the error of [db.Query] when it does not), and the
    tags text is a JSON object, which [json.Unmarshal] accepts (the
    source skips a row whose tags text it cannot decode). *)
Fixpoint getResults_from (l : ExportLayer) (rows : list TableRow)
    (res : list Feature.t) : result (list Feature.t) :=
  match rows with
  | [] => Ok res
  | row :: rest =>
      let '(geo, osm_tags) := scan l row in
      match osm_tags with
      | None => getResults_from l rest res
      | Some tags =>
          if (length geo =? 0)%nat then getResults_from l rest res
          else match parseGpkgGeom geo with
               | Ok g => getResults_from l rest (res ++ [Feature.mk l tags g])
               | Err _ => getResults_from l rest res
               | Panic p => Panic p
               end
      end
  end.

Definition getResults (l : ExportLayer) (rows : list TableRow)
  : result (list Feature.t) :=
  getResults_from l rows [].

End gpkg_geom.

(** ** Layer discovery *)

(** [sql.NullString]: [None] is NULL, and its [String] field is then
    the empty string. *)
Definition NullString := option string.

Definition String_of (s : NullString) : string := default "" s.

(** A scanned row of [gpkg_geometry_columns]. *)
Record GeometryColumn := mkGeometryColumn {
  gc_table_name : string;
  gc_column_name : string;
  gc_geometry_type_name : NullString;
  gc_srs_id : Z;
  gc_z : NullBool;
  gc_m : NullBool
}.

(** A scanned row of [gpkg_data_columns]. *)
Record DataColumn := mkDataColumn {
  dc_table_name : NullString;
  dc_column_name : NullString;
  dc_description : NullString;
  dc_mime_type : NullString
}.

(** First loop of [getGeoPackageLayers]: a fresh layer per row, stored
    under its name. *)
Definition addLayer (layers : gmap string ExportLayer) (r : GeometryColumn)
  : gmap string ExportLayer :=
  let l := mkExportLayer (gc_table_name r) [] false (gc_column_name r)
             (String_of (gc_geometry_type_name r)) (gc_srs_id r)
             (gc_z r) (gc_m r) in
  <[Name l := l]> layers.

(** The test of the first [if] of the second loop. *)
Definition is_osm_tags_json (col mime_type : NullString) : bool :=
  (String.eqb (String_of col) "osm_tags"
   && String.eqb (String_of mime_type) "application/json")%bool.

(** The test of the second [if]. *)
Definition describes_osm_tag (desc : NullString) : bool :=
  strings.Contains (strings.ToLower (String_of desc)) "osm tag".

Definition set_OSMJsonField (l : ExportLayer) : ExportLayer :=
  mkExportLayer (Name l) (Tags l) true (GeometryField l) (GeometryType l)
    (SRS l) (ZFlag l) (MFlag l).

Definition append_Tag (l : ExportLayer) (col : string) : ExportLayer :=
  mkExportLayer (Name l) (Tags l ++ [col]) (OSMJsonField l) (GeometryField l)
    (GeometryType l) (SRS l) (ZFlag l) (MFlag l).

(** What one data column does to the layer [l] it belongs to. *)
Definition applyDataColumn (l : ExportLayer) (r : DataColumn) : ExportLayer :=
  if is_osm_tags_json (dc_column_name r) (dc_mime_type r)
  then set_OSMJsonField l
  else if describes_osm_tag (dc_description r)
  then append_Tag l (String_of (dc_column_name r))
  else l.

(** Body of the second loop: rows of tables that are no geometry layer
    are passed over; the map holds pointers, so the change to [l] is a
    change of the entry. *)
Definition addDataColumn (layers : gmap string ExportLayer) (r : DataColumn)
  : gmap string ExportLayer :=
  match layers !! String_of (dc_table_name r) with
  | None => layers
  | Some l => <[String_of (dc_table_name r) := applyDataColumn l r]> layers
  end.

(** Third loop: layers that do not validate are deleted. *)
Definition validateLayers (layers : gmap string ExportLayer)
  : gmap string ExportLayer :=
  filter (λ kv, Validate kv.2 = None) layers.

Definition getGeoPackageLayers (geometry_columns : list GeometryColumn)
    (data_columns : list DataColumn) : gmap string ExportLayer :=
  validateLayers
    (fold_left addDataColumn data_columns
       (fold_left addLayer geometry_columns ∅)).

(** ** The run of [main] *)

(** The case list of the type switch in the conversion loop. *)
Definition is_line_or_polygon (g : geomT) : bool :=
  match g with
  | MultiLineString _ | MultiPolygon _ | LineString _ | Polygon _ => true
  | _ => false
  end.

Section conversion.

Variable Unmarshal : list byte → result geomT.

(** [pbf.WriteEntity] of [osm-go], the output writer: it returns nil
    or an error, or it panics. *)
Variable WriteEntity : Entity → result unit.

(** The calls of [pbf.WriteEntity] in the inner loop, for the entities
    of one layer in order; [written] are the entities the writer has
    accepted so far.  An error the writer returns is logged and the
    loop goes on; a panic stops the run. *)
Fixpoint writeEntities (es : list Entity) (written : list Entity)
  : list Entity * option panic :=
  match es with
  | [] => (written, None)
  | e :: rest =>
      match WriteEntity e with
      | Ok _ => writeEntities rest (written ++ [e])
      | Err _ => writeEntities rest written
      | Panic p => (written, Some p)
      end
  end.

(** The conversion loop of [main] over the layers, each with the rows
    of its table, in the order the map iteration visits them.  The
    rows of a layer are read in full before its first entity is
    written; a layer whose read fails is passed over; a panic, in the
    read or in the writer, stops the run with what has been
    written. *)
Fixpoint convert (tables : list (ExportLayer * list TableRow))
    (written : list Entity) : list Entity * option panic :=
  match tables with
  | [] => (written, None)
  | (l, rows) :: rest =>
      match getResults Unmarshal l rows with
      | Ok results =>
          match writeEntities (writeResults results) written with
          | (written', None) => convert rest written'
          | (written', Some p) => (written', Some p)
          end
      | Err _ => convert rest written
      | Panic p => (written, Some p)
      end
  end.

End conversion.

(** [s[n:]] on a string, for [n] within its length. *)
Fixpoint string_from (n : nat) (s : string) : string :=
  match n, s with
  | O, _ => s
  | S n', String _ r => string_from n' r
  | S _, EmptyString => EmptyString
  end.

(** [strings.HasSuffix s suffix]:
    [len(s) >= len(suffix) && s[len(s)-len(suffix):] == suffix]. *)
Definition HasSuffix (s suffix : string) : bool :=
  ((String.length suffix <=? String.length s)%nat
   && String.eqb (string_from (String.length s - String.length suffix) s) suffix)%bool.

(** Where the output of a conversion goes. *)
Inductive Output :=
| Stdout
| File (path : string).

(** What [main] decides from its arguments, before it opens a file. *)
Inductive Run :=
| ExitMissingInput                      (* "missing input file", usage, exit 1 *)
| ExitInvalidExtension (file : string)  (* "invalid output extension", exit 1 *)
| Summary (input : string)              (* the layers are listed, nothing is converted *)
| Convert (input : string) (out : Output).

(** The argument handling of [main].  The extension test lowers the
    output name and looks for the ASCII suffix ".pbf", for which the
    byte-wise [strings.ToLower] above is exact as well. *)
Definition main_args (args : list string) : Run :=
  match args with
  | [] => ExitMissingInput
  | [inputGPKG] => Summary inputGPKG
  | inputGPKG :: outputFile :: _ =>
      if String.eqb outputFile "-" then Convert inputGPKG Stdout
      else if HasSuffix (strings.ToLower outputFile) ".pbf"
      then Convert inputGPKG (File outputFile)
      else ExitInvalidExtension outputFile
  end.

(** The column list [main] logs for a layer: a slice of
    [len(layer.Tags)+1] empty strings, the tags copied to its front, and
    "osm_tags" stored behind them when the layer has the JSON column;
    the slice is then joined with commas. *)
Definition layerCols (layer : ExportLayer) : list string :=
  let cols := replicate (length (Tags layer) + 1)%nat "" in
  let i := length (Tags layer) in
  let cols := (Tags layer ++ drop i cols)%list in
  if OSMJsonField layer then <[i := "osm_tags"]> cols else cols.

Definition layerColsText (layer : ExportLayer) : string :=
  strings.Join (layerCols layer) ",".

(** The tag test of one row: its column is appended to [Tags]. *)
Definition adds_tag (r : DataColumn) : Prop :=
  is_osm_tags_json (dc_column_name r) (dc_mime_type r) = false
  ∧ describes_osm_tag (dc_description r) = true.

Global Instance adds_tag_dec r : Decision (adds_tag r).
Proof. unfold adds_tag. apply _. Defined.

(** ** The specification's own notions

    Three notions the specification speaks of and the program does not
    define; each follows the specification's words and is compared
    with the program below. *)







(** A JSON object without boolean members. *)
Definition is_bool (v : jval) : bool :=
  match v with JBool _ => true | _ => false end.



(** * Concrete inputs

    Layers, rows and blobs at which the properties below are evaluated. *)

(** A point layer in the accepted reference system with one tag column,
    and the same layer declared as MULTIPOINT. *)
Definition point_layer : ExportLayer :=
  mkExportLayer "places" ["name"] false "geom" "POINT" 4326 None None.

Definition multipoint_layer : ExportLayer :=
  mkExportLayer "places" ["name"] false "geom" "MULTIPOINT" 4326 None None.

Definition lowercase_point_layer : ExportLayer :=
  mkExportLayer "places" ["name"] false "geom" "point" 4326 None None.

(** A line layer with no tag source yet, the map the discovery holds
    after its first loop, and a data column named [osm_tags] whose mime
    type is not the JSON one and whose description names an OSM tag. *)
Definition roads_layer : ExportLayer :=
  mkExportLayer "roads" [] false "geom" "LINESTRING" 4326 None None.



(** The eight header bytes of a geometry blob: magic, version, flags
    and the SRS id 4326 in little-endian order. *)
Definition gpkg_header (b0 b1 flags : byte) : list byte :=
  [b0; b1; x00; flags; xe6; x10; x00; x00].

(** An envelope of [n] bytes (its values are never read). *)
Definition envelope (n : nat) : list byte := replicate n x00.

(** A layer whose only tag source is the JSON column, and a row of it
    whose geometry column holds three bytes. *)
Definition json_layer : ExportLayer :=
  mkExportLayer "pois" [] true "geom" "POINT" 4326 None None.

Definition short_blob_row : TableRow :=
  mkRow ["G"; "P"; x00]%byte (λ _, SqlNull) (Some ∅).

(** Two tagged point features a fraction of a millimetre apart, a
    polygon feature with one hole, and two line features. *)
Definition name_tag (v : string) : gmap string jval := {["name" := JString v]}.






Definition line_a : Feature.t :=
  Feature.mk roads_layer (name_tag "A1") (LineString [mkCoord 0 0; mkCoord 1 1]).

Definition line_b : Feature.t :=
  Feature.mk roads_layer (name_tag "A2") (LineString [mkCoord 1 1; mkCoord 2 0]).

(** The example of the tag merge: a layer with the tag columns [a] and
    [b] and the JSON column, and a row with a = 1, b = 2 and the JSON
    object {"b": null, "c": 3}; the same JSON object in a row of a
    layer whose only tag source is the JSON column. *)
Definition ab_layer : ExportLayer :=
  mkExportLayer "pois" ["a"; "b"] true "geom" "POINT" 4326 None None.

Definition ab_cells (column : string) : sqlval :=
  if String.eqb column "a" then SqlInteger 1
  else if String.eqb column "b" then SqlInteger 2
  else SqlNull.




(** The two metadata tables of a small GeoPackage: a line layer with
    two described tag columns and the JSON tag column, and a point
    layer whose only data column is not described as a tag; the map
    after the first loop of the discovery, and the line layer as the
    discovery returns it. *)
Definition sample_geometry_columns : list GeometryColumn :=
  [mkGeometryColumn "roads" "geom" (Some "LINESTRING") 4326 (Some false) (Some false);
   mkGeometryColumn "places" "geom" (Some "POINT") 4326 None None].

Definition sample_data_columns : list DataColumn :=
  [mkDataColumn (Some "roads") (Some "name") (Some "OSM tag: name") (Some "text/plain");
   mkDataColumn (Some "roads") (Some "osm_tags") None (Some "application/json");
   mkDataColumn (Some "places") (Some "label") (Some "a label") None;
   mkDataColumn (Some "roads") (Some "highway") (Some "osm tag") None].

Definition sample_layers : gmap string ExportLayer :=
  fold_left addLayer sample_geometry_columns ∅.

Definition roads_scanned : ExportLayer :=
  mkExportLayer "roads" [] false "geom" "LINESTRING" 4326 (Some false) (Some false).

Definition roads_discovered : ExportLayer :=
  mkExportLayer "roads" ["name"; "highway"] true "geom" "LINESTRING" 4326
    (Some false) (Some false).

(** A stand-in for the WKB decoder, enough to run the parser on: it
    looks at the first payload byte only. *)
Definition toy_Unmarshal (payload : list byte) : result geomT :=
  match payload with
  | [] => Err "unexpected EOF"
  | b :: _ =>
      if Byte.eqb b x01 then Ok (Point (mkCoord 0 0))
      else if Byte.eqb b x02 then Ok (LineString [mkCoord 0 0; mkCoord 1 1])
      else Err "unknown geometry type"
  end.

(** Two blobs with the same flags and payload and different version,
    SRS and envelope bytes; a row of the JSON-only layer with a line
    blob, and one with an empty blob. *)
Definition skipped_zero : list byte := replicate 36 x00.
Definition skipped_ones : list byte := replicate 36 xff.

Definition line_blob : list byte :=
  gpkg_header "G" "P" x03 ++ envelope 32 ++ [x02].

Definition line_row : TableRow :=
  mkRow line_blob (λ _, SqlNull) (Some (name_tag "A1")).

Definition empty_blob_row : TableRow :=
  mkRow [] (λ _, SqlNull) (Some (name_tag "A2")).

Definition line_way : Entity :=
  mkEntity WayKind 1 (Some (LineString [mkCoord 0 0; mkCoord 1 1])) (name_tag "A1").

Definition oneway_row : TableRow :=
  mkRow [] ab_cells (Some {["oneway" := JBool true]}).

(** A stand-in for the output writer: it accepts an entity whose tag
    values are all strings and panics on any other. *)
Definition toy_writer_panic : panic :=
  OtherPanic "interface conversion: interface {} is float64, not string".

Definition is_string (v : jval) : bool :=
  match v with JString _ => true | _ => false end.

Definition toy_WriteEntity (e : Entity) : result unit :=
  if bool_decide (map_Forall (λ _ v, is_string v = true) (ent_tags e))
  then Ok () else Panic toy_writer_panic.

(** Two line layers whose only tag source is the JSON column, a row
    with a numeric tag value, and three features with string tags: two
    lines and a point. *)
Definition tracks_layer : ExportLayer :=
  mkExportLayer "tracks" [] true "geom" "LINESTRING" 4326 None None.

Definition trails_layer : ExportLayer :=
  mkExportLayer "trails" [] true "geom" "LINESTRING" 4326 None None.


Definition tracks_feature : Feature.t :=
  Feature.mk tracks_layer (name_tag "A1") (LineString [mkCoord 0 0; mkCoord 1 1]).

Definition places_feature : Feature.t :=
  Feature.mk point_layer (name_tag "A2") (Point (mkCoord 0 0)).

Definition trails_feature : Feature.t :=
  Feature.mk trails_layer (name_tag "A3") (LineString [mkCoord 1 1; mkCoord 2 0]).

(** * Properties *)

(** ** Layer validation *)

Lemma valid_geoms_lookup (s : string) :
  is_Some (valid_geoms !! s) ↔ s ∈ valid_geom_names.
Proof.
  unfold valid_geoms, valid_geom_names.
  rewrite !lookup_insert_is_Some, lookup_empty, !elem_of_cons, elem_of_nil.
  split.
  - intros H. repeat (destruct H as [H | [_ H]]; [left; by symmetry | right]).
    by destruct H.
  - intros H.
    repeat (destruct H as [H | H]; [subst s; try (by left);
      repeat (right; split; [done|]; try (by left)) |]).
    done.
Qed.

(** Validation succeeds exactly when a tag source exists, the SRS is
    4326 and the geometry type is a key of [valid_geoms]. *)
Lemma Validate_nil_iff (l : ExportLayer) :
  Validate l = None ↔
  (OSMJsonField l = true ∨ Tags l ≠ []) ∧ SRS l = 4326 ∧
  GeometryType l ∈ valid_geom_names.
Proof.
  unfold Validate. rewrite <- valid_geoms_lookup.
  destruct (OSMJsonField l), (Tags l) as [|t ts]; simpl;
    destruct (Z.eqb_spec (SRS l) 4326) as [Hs | Hs]; simpl;
    destruct (valid_geoms !! GeometryType l) as [g|] eqn:Hg.
  all: split; [intros Hv | intros (Hsrc & Hsrs & [g' Hg'])].
  all: try discriminate; try contradiction.
  all: try (destruct Hsrc; done).
  all: repeat split; eauto.
  all: right; discriminate.
Qed.

(** ** The query *)

Lemma Query_render (l : ExportLayer) : render (QueryPlan l) = Query l.
Proof.
  unfold render, QueryPlan, Query.
  destruct (OSMJsonField l && (length (Tags l) =? 0)%nat)%bool; [done|].
  by destruct (OSMJsonField l).
Qed.


(** A layer survives the last loop of the discovery only if it
    validates. *)
Lemma validateLayers_lookup (layers : gmap string ExportLayer) name l :
  validateLayers layers !! name = Some l ↔
  layers !! name = Some l ∧ Validate l = None.
Proof. unfold validateLayers. by rewrite map_lookup_filter_Some. Qed.

Lemma getGeoPackageLayers_valid geometry_columns data_columns name l :
  getGeoPackageLayers geometry_columns data_columns !! name = Some l →
  Validate l = None.
Proof.
  unfold getGeoPackageLayers. rewrite validateLayers_lookup. by intros [_ ?].
Qed.

(** C5: a layer is exportable exactly when its reference system is
    4326, its geometry type is one of the six supported kinds and a tag
    source exists.  The program departs from this at MULTIPOINT: the
    layer below has a tag column and SRS 4326, its geometry type is one
    of the six kinds, and [Validate] refuses it, because [valid_geoms]
    has no MULTIPOINT key. *)
Theorem Validate_refuses_multipoint :
  Tags multipoint_layer = ["name"] ∧ SRS multipoint_layer = 4326 ∧
  GeometryType multipoint_layer = "MULTIPOINT" ∧
  Validate multipoint_layer = Some "invalid geometry type" ∧
  Validate point_layer = None.
Proof. repeat split; reflexivity. Qed.

(** A layer in another reference system is refused whatever else it
    declares. *)
Lemma Validate_refuses_other_srs (l : ExportLayer) :
  SRS l ≠ 4326 → is_Some (Validate l).
Proof.
  intros Hsrs. destruct (Validate l) eqn:Hv; [eauto|].
  apply Validate_nil_iff in Hv as (_ & ? & _). done.
Qed.

(** C9: the geometry type is accepted by exact, case-sensitive
    comparison with the five upper-case names of [valid_geoms]: a layer
    whose geometry type is any other string fails validation, and no
    run of the discovery returns it. *)
Theorem geometry_type_match_is_exact (l : ExportLayer) :
  GeometryType l ∉ valid_geom_names →
  is_Some (Validate l) ∧
  ∀ geometry_columns data_columns name,
    getGeoPackageLayers geometry_columns data_columns !! name ≠ Some l.
Proof.
  intros Hty.
  assert (Validate l ≠ None) as Hv.
  { intros Hv. apply Validate_nil_iff in Hv as (_ & _ & ?). done. }
  split.
  - by destruct (Validate l); [eauto|].
  - intros gcs dcs name Hl. by apply getGeoPackageLayers_valid in Hl.
Qed.

Lemma geometry_type_match_is_exact_witness :
  is_Some (Validate lowercase_point_layer) ∧
  ∀ geometry_columns data_columns name,
    getGeoPackageLayers geometry_columns data_columns !! name
    ≠ Some lowercase_point_layer.
Proof.
  apply (geometry_type_match_is_exact lowercase_point_layer).
  apply (bool_decide_eq_false_1 ("point" ∈ valid_geom_names)).
  vm_compute. reflexivity.
Defined.

(** Mixed case and dimension suffixes are refused as well. *)
Example Validate_refuses_mixed_case :
  Validate (mkExportLayer "places" ["name"] false "geom" "Polygon" 4326 None None)
  = Some "invalid geometry type".
Proof. reflexivity. Qed.

Example Validate_refuses_suffix :
  Validate (mkExportLayer "places" ["name"] false "geom" "POINT Z" 4326 None None)
  = Some "invalid geometry type".
Proof. reflexivity. Qed.

(** ** Strings *)




Lemma ToLower_app (a b : string) :
  strings.ToLower (a +:+ b) = strings.ToLower a +:+ strings.ToLower b.
Proof. induction a as [|c a IH]; simpl; [done | by rewrite IH]. Qed.




(** ** Discovery of the tag sources *)




(** ** The geometry blob header *)

Section gpkg_geom_properties.

Variable Unmarshal : list byte → result geomT.

(** What the parser does with a blob that is long enough, begins with
    'G' and carries the envelope indicator 1, 2, 3 or 4 in its flags:
    the payload after header and envelope goes to the WKB decoder. *)
Lemma parseGpkgGeom_payload (b1 v flags : byte) (srs env payload : list byte)
    (n : nat) :
  envelope_size (envelope_indicator flags) = Ok n →
  length srs = 4%nat → length env = n →
  parseGpkgGeom Unmarshal ("G"%byte :: b1 :: v :: flags :: srs ++ env ++ payload)
  = Unmarshal payload.
Proof.
  intros Hsize Hsrs Henv. unfold parseGpkgGeom, bad_header. simpl.
  rewrite Hsize. simpl. unfold slice_from.
  destruct srs as [|s0 [|s1 [|s2 [|s3 [|]]]]]; try discriminate. simpl.
  rewrite length_app, Henv.
  destruct (Nat.leb_spec n (n + length payload)) as [_|?]; [|lia].
  simpl. by rewrite drop_app_length'.
Qed.

Lemma envelope_size_cases (ind : N) :
  envelope_size ind =
  if decide (ind = 1%N) then Ok 32%nat
  else if decide (ind = 2%N ∨ ind = 3%N) then Ok 48%nat
  else if decide (ind = 4%N) then Ok 64%nat
  else Err ("invalid envelope type: " +:+ pretty ind).
Proof.
  destruct ind as [|[[[]|[]|]|[[]|[]|]|]]; try reflexivity.
Qed.

(** C4: the envelope indicator 0 stands for an envelope of 0 bytes,
    after which the WKB payload follows.  The program departs from
    this: the [switch] has no case for 0, so a blob with a valid
    header and no envelope ends in the [default] case and is refused
    with the envelope error, whatever its payload. *)
Theorem parseGpkgGeom_refuses_indicator_0 (payload : list byte) :
  envelope_indicator x01 = 0%N ∧
  parseGpkgGeom Unmarshal (gpkg_header "G" "P" x01 ++ payload)
  = Err "invalid envelope type: 0".
Proof. split; reflexivity. Qed.

(** C7: a blob that does not begin with 'G','P' is refused with the
    header error.  The program departs from this: its test joins the
    two byte comparisons with [&&], so a blob is refused only when
    both bytes are wrong.  The blobs below begin with 'G','X' and with
    'X','P'; the header test lets both pass and the payload reaches
    the WKB decoder. *)
Theorem parseGpkgGeom_accepts_wrong_magic (payload : list byte) :
  bad_header (gpkg_header "G" "X" x03 ++ envelope 32 ++ payload) = Ok false ∧
  bad_header (gpkg_header "X" "P" x03 ++ envelope 32 ++ payload) = Ok false ∧
  parseGpkgGeom Unmarshal (gpkg_header "G" "X" x03 ++ envelope 32 ++ payload)
  = Unmarshal payload ∧
  parseGpkgGeom Unmarshal (gpkg_header "X" "P" x03 ++ envelope 32 ++ payload)
  = Unmarshal payload ∧
  parseGpkgGeom Unmarshal (gpkg_header "X" "Y" x03 ++ envelope 32 ++ payload)
  = Err "bad header".
Proof. repeat split; reflexivity. Qed.

(** C8: a blob shorter than header plus envelope is answered with an
    error value.  The program departs from this: it indexes and
    slices the blob without looking at its length, so such a blob
    ends the run with a panic: the empty blob at [data[0]], a three
    byte blob at [data[3]], a bare header that announces a 32 byte
    envelope at [data[8+32:]].  The row reader answers the empty blob
    itself by skipping the row, but lets the three byte blob through
    to the parser, and the panic leaves [getResults]. *)
Theorem parseGpkgGeom_panics_on_short_blob :
  parseGpkgGeom Unmarshal [] = Panic (IndexOutOfRange 0 0) ∧
  getResults Unmarshal json_layer [mkRow [] (λ _, SqlNull) (Some ∅)] = Ok [] ∧
  parseGpkgGeom Unmarshal ["G"; "P"; x00]%byte = Panic (IndexOutOfRange 3 3) ∧
  parseGpkgGeom Unmarshal (gpkg_header "G" "P" x03)
  = Panic (SliceBoundsOutOfRange 40 8) ∧
  getResults Unmarshal json_layer [short_blob_row]
  = Panic (IndexOutOfRange 3 3).
Proof. repeat split; reflexivity. Qed.

End gpkg_geom_properties.

(** ** The conversion loop *)

(** Whatever the loop writes is a way created with identifier 1 that
    carries the geometry and the tags of its feature. *)
Lemma writeFeature_cases (r : Feature.t) :
  writeFeature r = [] ∨
  writeFeature r
  = [mkEntity WayKind 1 (Some (Feature.G r)) (Feature.Tags r)].
Proof. unfold writeFeature. destruct (Feature.G r); auto. Qed.

Lemma writeResults_entity (results : list Feature.t) (e : Entity) :
  e ∈ writeResults results → ent_kind e = WayKind ∧ ent_id e = 1.
Proof.
  unfold writeResults. rewrite list_elem_of_In, in_flat_map.
  intros (r & _ & He). apply list_elem_of_In in He.
  destruct (writeFeature_cases r) as [Hw|Hw]; rewrite Hw in He.
  - by apply elem_of_nil in He.
  - apply list_elem_of_singleton in He as ->. done.
Qed.





(** C3: two distinct primitives of one kind carry distinct
    identifiers.  The program departs from this: every entity is
    created by [NewWay(1)], so the two line features below come out as
    two different ways that both carry the identifier 1. *)
Theorem ways_share_identifier_1 :
  ∃ e1 e2, writeResults [line_a; line_b] = [e1; e2] ∧
    ent_kind e1 = WayKind ∧ ent_kind e2 = WayKind ∧
    ent_geometry e1 ≠ ent_geometry e2 ∧
    ent_id e1 = 1 ∧ ent_id e2 = 1.
Proof.
  eexists _, _. split; [reflexivity|].
  repeat split; try reflexivity. discriminate.
Qed.

(** ** Tag resolution *)












Lemma QueryPlan_named (l : ExportLayer) :
  Tags l ≠ [] →
  sel_tags (QueryPlan l)
  = NotNullMembers (if OSMJsonField l then JsonPatch (JsonObject (Tags l))
                    else JsonObject (Tags l)).
Proof.
  intros Ht. unfold QueryPlan. destruct (Tags l); [done|].
  by rewrite andb_false_r.
Qed.




(** Two things the query does on the way, outside the statement above:
    a boolean member comes back as the number 1 or 0, and a row whose
    JSON field is NULL comes back with no tags at all, its named
    columns included. *)
Example boolean_member_comes_back_as_number :
  rowTags ab_layer (mkRow [] ab_cells (Some {["oneway" := JBool true]}))
  = Some {["a" := JNumber 1; "b" := JNumber 2; "oneway" := JNumber 1]}.
Proof. by vm_compute. Qed.

Example null_json_field_loses_named_columns :
  rowTags ab_layer (mkRow [] ab_cells None) = Some ∅.
Proof. reflexivity. Qed.

(** * Further properties *)

(** ** Validation, case by case *)

(** X1: which answer [Validate] gives: "no OSM tags" exactly when the
    layer has neither the JSON column nor a tag column; otherwise the
    SRS error exactly when the SRS is not 4326; otherwise the geometry
    error exactly when the geometry type is none of the five names of
    [valid_geoms]; and nil exactly when all three checks pass. *)
Theorem Validate_error_cases (l : ExportLayer) :
  let has_source := OSMJsonField l = true ∨ Tags l ≠ [] in
  (Validate l = Some "no OSM tags" ↔ ¬ has_source) ∧
  (Validate l = Some "invalid SRS, must be EPSG:4326"
     ↔ has_source ∧ SRS l ≠ 4326) ∧
  (Validate l = Some "invalid geometry type"
     ↔ has_source ∧ SRS l = 4326 ∧ GeometryType l ∉ valid_geom_names) ∧
  (Validate l = None
     ↔ has_source ∧ SRS l = 4326 ∧ GeometryType l ∈ valid_geom_names).
Proof.
  intros has_source. subst has_source. unfold Validate.
  rewrite <- (valid_geoms_lookup (GeometryType l)).
  destruct (OSMJsonField l), (Tags l) as [|t ts]; simpl;
    destruct (Z.eqb_spec (SRS l) 4326) as [Hs | Hs]; simpl;
    destruct (valid_geoms !! GeometryType l) as [g|] eqn:Hg.
  all: rewrite ?is_Some_alt.
  all: repeat split; try discriminate; try tauto;
    try (intuition (discriminate || congruence || eauto)).
Qed.

(** ** The three loops of the discovery *)

Lemma addDataColumn_other (layers : gmap string ExportLayer) r name :
  String_of (dc_table_name r) ≠ name →
  addDataColumn layers r !! name = layers !! name.
Proof.
  intros Hne. unfold addDataColumn.
  destruct (layers !! String_of (dc_table_name r)); [|done].
  by apply lookup_insert_ne.
Qed.

Lemma addDataColumn_same (layers : gmap string ExportLayer) r :
  addDataColumn layers r !! String_of (dc_table_name r)
  = (λ l, applyDataColumn l r) <$> layers !! String_of (dc_table_name r).
Proof.
  unfold addDataColumn.
  destruct (layers !! String_of (dc_table_name r)) as [l|] eqn:Hl; simpl.
  - apply lookup_insert_eq.
  - by rewrite Hl.
Qed.

(** The second loop, seen from one layer: only the rows of its table
    act on it, one after the other. *)
Lemma fold_addDataColumn_lookup (dcs : list DataColumn)
    (layers : gmap string ExportLayer) (name : string) :
  fold_left addDataColumn dcs layers !! name
  = fold_left applyDataColumn
      (filter (λ r, String_of (dc_table_name r) = name) dcs)
    <$> layers !! name.
Proof.
  revert layers. induction dcs as [|r dcs IH]; intros layers; simpl.
  - by destruct (layers !! name).
  - rewrite IH. destruct (decide (String_of (dc_table_name r) = name)) as [<-|Hne].
    + rewrite filter_cons_True by done. rewrite addDataColumn_same.
      by destruct (layers !! String_of (dc_table_name r)).
    + rewrite filter_cons_False by done. by rewrite addDataColumn_other.
Qed.

Lemma fold_applyDataColumn_Tags (rows : list DataColumn) (l : ExportLayer) :
  Tags (fold_left applyDataColumn rows l)
  = (Tags l ++ ((λ r, String_of (dc_column_name r)) <$> filter adds_tag rows))%list.
Proof.
  revert l. induction rows as [|r rows IH]; intros l; simpl.
  - by rewrite app_nil_r.
  - rewrite IH. unfold applyDataColumn, adds_tag.
    destruct (is_osm_tags_json _ _) eqn:Hj.
    + rewrite filter_cons_False by (intros [? _]; congruence). done.
    + destruct (describes_osm_tag _) eqn:Hd.
      * rewrite filter_cons_True by done. simpl. by rewrite <- app_assoc.
      * rewrite filter_cons_False by (intros [_ ?]; congruence). done.
Qed.

Lemma fold_applyDataColumn_flag (rows : list DataColumn) (l : ExportLayer) :
  OSMJsonField (fold_left applyDataColumn rows l)
  = (OSMJsonField l
     || existsb (λ r, is_osm_tags_json (dc_column_name r) (dc_mime_type r)) rows)%bool.
Proof.
  revert l. induction rows as [|r rows IH]; intros l; simpl.
  - by rewrite orb_false_r.
  - rewrite IH. unfold applyDataColumn.
    destruct (is_osm_tags_json _ _); simpl.
    + by rewrite orb_true_r.
    + destruct (describes_osm_tag _); simpl; done.
Qed.

Lemma fold_applyDataColumn_fields (rows : list DataColumn) (l : ExportLayer) :
  let l' := fold_left applyDataColumn rows l in
  Name l' = Name l ∧ GeometryField l' = GeometryField l ∧
  GeometryType l' = GeometryType l ∧ SRS l' = SRS l.
Proof.
  revert l. induction rows as [|r rows IH]; intros l; simpl; [done|].
  destruct (IH (applyDataColumn l r)) as (-> & -> & -> & ->).
  unfold applyDataColumn.
  destruct (is_osm_tags_json _ _); [done|]. by destruct (describes_osm_tag _).
Qed.

(** The first loop: the entry of a name is the layer of the last row
    that carries it. *)
Lemma fold_addLayer_lookup (gcs : list GeometryColumn)
    (layers : gmap string ExportLayer) (name : string) (l : ExportLayer) :
  fold_left addLayer gcs layers !! name = Some l →
  (layers !! name = Some l ∧ ∀ r, r ∈ gcs → gc_table_name r ≠ name) ∨
  ∃ before r after,
    gcs = (before ++ r :: after)%list ∧ gc_table_name r = name ∧
    (∀ r', r' ∈ after → gc_table_name r' ≠ name) ∧
    l = mkExportLayer (gc_table_name r) [] false (gc_column_name r)
          (String_of (gc_geometry_type_name r)) (gc_srs_id r) (gc_z r) (gc_m r).
Proof.
  revert layers. induction gcs as [|r0 gcs IH]; intros layers Hl; simpl in Hl.
  - left. split; [done|]. intros r Hr. by apply elem_of_nil in Hr.
  - apply IH in Hl as [[Hl Hno]|(before & r & after & -> & Hr & Hafter & ->)].
    + unfold addLayer in Hl. simpl in Hl.
      destruct (decide (gc_table_name r0 = name)) as [Heq|Hne].
      * right. exists [], r0, gcs. rewrite Heq, lookup_insert_eq in Hl.
        injection Hl as <-. by rewrite Heq.
      * left. rewrite lookup_insert_ne in Hl by done. split; [done|].
        intros r [->|Hr]%elem_of_cons; auto.
    + right. by exists (r0 :: before), r, after.
Qed.

(** X2: the data columns neither add nor remove a layer, and the rows
    of other tables leave a layer as it is. *)
Theorem data_columns_keep_layers (dcs : list DataColumn)
    (layers : gmap string ExportLayer) (name : string) :
  (is_Some (fold_left addDataColumn dcs layers !! name)
     ↔ is_Some (layers !! name)) ∧
  (Forall (λ r, String_of (dc_table_name r) ≠ name) dcs →
     fold_left addDataColumn dcs layers !! name = layers !! name).
Proof.
  rewrite fold_addDataColumn_lookup. split.
  - by rewrite fmap_is_Some.
  - intros Hother.
    assert (filter (λ r, String_of (dc_table_name r) = name) dcs = []) as ->.
    { induction Hother as [|r dcs Hr _ IH]; [done|].
      by rewrite filter_cons_False. }
    by destruct (layers !! name).
Qed.

(** X3: after the second loop a layer holds, behind the tag columns it
    had, the columns of the rows of its table that are no JSON tag
    column and whose description names an OSM tag, in row order; it
    has the JSON flag exactly when it had it or some row of its table
    is the JSON tag column; its name, geometry column, geometry type
    and SRS are as before. *)
Theorem tag_sources_collected (dcs : list DataColumn)
    (layers : gmap string ExportLayer) (name : string) (l : ExportLayer) :
  layers !! name = Some l →
  let rows := filter (λ r, String_of (dc_table_name r) = name) dcs in
  ∃ l', fold_left addDataColumn dcs layers !! name = Some l' ∧
    Tags l' = (Tags l
               ++ ((λ r, String_of (dc_column_name r)) <$> filter adds_tag rows))%list ∧
    OSMJsonField l'
    = (OSMJsonField l
       || existsb (λ r, is_osm_tags_json (dc_column_name r) (dc_mime_type r)) rows)%bool ∧
    Name l' = Name l ∧ GeometryField l' = GeometryField l ∧
    GeometryType l' = GeometryType l ∧ SRS l' = SRS l.
Proof.
  intros Hl rows. eexists. split.
  - rewrite fold_addDataColumn_lookup, Hl. reflexivity.
  - fold rows. split; [apply fold_applyDataColumn_Tags|].
    split; [apply fold_applyDataColumn_flag|].
    apply fold_applyDataColumn_fields.
Qed.

(** X4: a layer the discovery returns is stored under its own name,
    passes [Validate], and has the geometry column, geometry type and
    SRS of the last row of [gpkg_geometry_columns] for its table. *)
Theorem discovered_layer (gcs : list GeometryColumn) (dcs : list DataColumn)
    (name : string) (l : ExportLayer) :
  getGeoPackageLayers gcs dcs !! name = Some l →
  Name l = name ∧ Validate l = None ∧
  ∃ before r after,
    gcs = (before ++ r :: after)%list ∧ gc_table_name r = name ∧
    (∀ r', r' ∈ after → gc_table_name r' ≠ name) ∧
    GeometryField l = gc_column_name r ∧
    GeometryType l = String_of (gc_geometry_type_name r) ∧
    SRS l = gc_srs_id r.
Proof.
  unfold getGeoPackageLayers. rewrite validateLayers_lookup.
  rewrite fold_addDataColumn_lookup. intros [Hl Hv].
  destruct (fold_left addLayer gcs ∅ !! name) as [l0|] eqn:Hl0; [|done].
  injection Hl as <-.
  pose proof (fold_applyDataColumn_fields
    (filter (λ r, String_of (dc_table_name r) = name) dcs) l0) as Hf.
  simpl in Hf. destruct Hf as (Hn & Hg & Ht & Hs).
  apply fold_addLayer_lookup in Hl0
    as [[Hl0 _]|(before & r & after & -> & Hr & Hafter & ->)].
  { by rewrite lookup_empty in Hl0. }
  split; [by rewrite Hn|]. split; [done|].
  exists before, r, after. by rewrite Hg, Ht, Hs.
Qed.

(** X5: a geometry table none of whose rows in [gpkg_data_columns] is
    the JSON tag column or described as an OSM tag is not returned by
    the discovery. *)
Theorem layer_without_tag_source_is_dropped (gcs : list GeometryColumn)
    (dcs : list DataColumn) (name : string) :
  Forall (λ r, String_of (dc_table_name r) = name →
               is_osm_tags_json (dc_column_name r) (dc_mime_type r) = false
               ∧ describes_osm_tag (dc_description r) = false) dcs →
  getGeoPackageLayers gcs dcs !! name = None.
Proof.
  intros Hnone. destruct (getGeoPackageLayers gcs dcs !! name) as [l|] eqn:Hl;
    [exfalso|done].
  unfold getGeoPackageLayers in Hl. rewrite validateLayers_lookup in Hl.
  rewrite fold_addDataColumn_lookup in Hl. destruct Hl as [Hl Hv].
  destruct (fold_left addLayer gcs ∅ !! name) as [l0|] eqn:Hl0; [|done].
  injection Hl as <-.
  apply fold_addLayer_lookup in Hl0
    as [[Hl0 _]|(before & r & after & _ & _ & _ & ->)].
  { by rewrite lookup_empty in Hl0. }
  apply Validate_nil_iff in Hv as (Hsrc & _).
  rewrite fold_applyDataColumn_Tags, fold_applyDataColumn_flag in Hsrc.
  simpl in Hsrc.
  set (rows := filter (λ r, String_of (dc_table_name r) = name) dcs) in *.
  assert (Forall (λ r, is_osm_tags_json (dc_column_name r) (dc_mime_type r) = false
                       ∧ describes_osm_tag (dc_description r) = false) rows) as Hrows.
  { apply Forall_forall. intros r0 [Hname Hin]%list_elem_of_filter.
    rewrite Forall_forall in Hnone. by apply Hnone. }
  clearbody rows. destruct Hsrc as [Hflag|Htags].
  - apply existsb_exists in Hflag as (r0 & Hin & Hj).
    rewrite Forall_forall in Hrows. apply list_elem_of_In in Hin.
    apply Hrows in Hin as [? _]. congruence.
  - apply Htags. assert (filter adds_tag rows = []) as ->; [|done].
    clear Htags. induction Hrows as [|r0 rows [_ Hd] _ IH]; [done|].
    rewrite filter_cons_False; [done|]. intros [_ ?]. congruence.
Qed.

Lemma tag_sources_collected_witness :
  sample_layers !! "roads" = Some roads_scanned ∧
  ∃ l', fold_left addDataColumn sample_data_columns sample_layers !! "roads"
        = Some l' ∧
        Tags l' = ["name"; "highway"] ∧ OSMJsonField l' = true.
Proof.
  split; [reflexivity|].
  destruct (tag_sources_collected sample_data_columns sample_layers "roads"
              roads_scanned eq_refl) as (l' & Hl' & Htags & Hflag & _).
  exists l'. split; [exact Hl'|]. split.
  - rewrite Htags. reflexivity.
  - rewrite Hflag. reflexivity.
Defined.

Lemma discovered_layer_witness :
  getGeoPackageLayers sample_geometry_columns sample_data_columns !! "roads"
  = Some roads_discovered ∧
  Name roads_discovered = "roads" ∧ Validate roads_discovered = None ∧
  ∃ before r after,
    sample_geometry_columns = (before ++ r :: after)%list ∧
    gc_table_name r = "roads" ∧
    (∀ r', r' ∈ after → gc_table_name r' ≠ "roads") ∧
    GeometryField roads_discovered = gc_column_name r ∧
    GeometryType roads_discovered = String_of (gc_geometry_type_name r) ∧
    SRS roads_discovered = gc_srs_id r.
Proof.
  split; [reflexivity|].
  apply (discovered_layer sample_geometry_columns sample_data_columns).
  reflexivity.
Defined.

Lemma layer_without_tag_source_is_dropped_witness :
  getGeoPackageLayers sample_geometry_columns sample_data_columns !! "places"
  = None.
Proof.
  apply layer_without_tag_source_is_dropped.
  repeat (constructor;
    [first [intros H; discriminate H | intros _; split; reflexivity]|]).
  constructor.
Defined.

(** ** The tags of a row, member by member *)

Lemma not_null_members_lookup (o : gmap string jval) (k : string) :
  not_null_members (Some o) !! k
  = match o !! k with
    | Some JNull | None => None
    | Some v => Some (json_each_value v)
    end.
Proof.
  unfold not_null_members. rewrite lookup_fmap, map_lookup_filter.
  destruct (o !! k) as [v|]; [|done]. simpl.
  destruct v; simpl; by repeat case_guard.
Qed.

Lemma json_each_value_not_null (v : jval) :
  v ≠ JNull → json_each_value v ≠ JNull ∧ is_bool (json_each_value v) = false.
Proof. by destruct v. Qed.


(** X7: the tags of a row of a layer with tag columns hold no null and
    no boolean value, whatever the row's JSON field holds. *)
Theorem named_layer_tags_are_not_null (l : ExportLayer) (row : TableRow)
    (tags : gmap string jval) :
  Tags l ≠ [] → rowTags l row = Some tags →
  map_Forall (λ _ v, v ≠ JNull ∧ is_bool v = false) tags.
Proof.
  intros Ht. unfold rowTags, scan. simpl. rewrite QueryPlan_named by done.
  simpl. intros [= <-] k v.
  destruct (eval_json _ row) as [o|] eqn:Ho; simpl.
  - fold (not_null_members (Some o)). rewrite not_null_members_lookup.
    destruct (o !! k) as [w|]; [|done].
    destruct w; try done; intros [= <-]; done.
  - by rewrite lookup_empty.
Qed.



Lemma named_layer_tags_are_not_null_witness :
  rowTags ab_layer oneway_row
  = Some {["a" := JNumber 1; "b" := JNumber 2; "oneway" := JNumber 1]} ∧
  map_Forall (λ _ v, v ≠ JNull ∧ is_bool v = false)
    ({["a" := JNumber 1; "b" := JNumber 2; "oneway" := JNumber 1]}
       : gmap string jval).
Proof.
  split; [by vm_compute|].
  apply (named_layer_tags_are_not_null ab_layer oneway_row);
    [discriminate | by vm_compute].
Defined.



(** ** The blob parser, in general *)

Section gpkg_geom_further.

Variable Unmarshal : list byte → result geomT.

Lemma envelope_indicator_div_mod (flags : byte) :
  envelope_indicator flags = ((Byte.to_N flags / 2) mod 8)%N.
Proof.
  unfold envelope_indicator.
  rewrite N.shiftr_div_pow2. change 7%N with (N.ones 3).
  by rewrite N.land_ones.
Qed.

Lemma parseGpkgGeom_cons (b0 b1 v flags : byte) (rest : list byte) :
  parseGpkgGeom Unmarshal (b0 :: b1 :: v :: flags :: rest)
  = if (negb (Byte.eqb b0 "G") && negb (Byte.eqb b1 "P"))%bool
    then Err "bad header"
    else match envelope_size (envelope_indicator flags) with
         | Ok n =>
             if (4 + n <=? length rest)%nat
             then Unmarshal (drop (4 + n) rest)
             else Panic (SliceBoundsOutOfRange (8 + n) (4 + length rest))
         | Err msg => Err msg
         | Panic p => Panic p
         end.
Proof.
  unfold parseGpkgGeom, bad_header. simpl.
  destruct (Byte.eqb b0 "G"); simpl.
  2: destruct (Byte.eqb b1 "P"); simpl; [|done].
  all: destruct (envelope_size _) as [n| |]; simpl; try done.
  all: unfold slice_from; simpl.
  all: by match goal with
          | |- bind (if ?c then _ else _) _ = _ => destruct c
          end.
Qed.

Lemma byte_eqb_true (a b : byte) : Byte.eqb a b = true ↔ a = b.
Proof.
  split; [|intros ->; by destruct b].
  intros H. apply byte_dec_bl in H. done.
Qed.

Lemma header_passes (b0 b1 : byte) :
  (negb (Byte.eqb b0 "G") && negb (Byte.eqb b1 "P"))%bool = false
  ↔ b0 = "G"%byte ∨ b1 = "P"%byte.
Proof.
  rewrite andb_false_iff, !negb_false_iff, !byte_eqb_true. done.
Qed.

(** X10: the version byte, the SRS bytes and the envelope bytes are
    never read: two blobs with the same magic, the same flags and the
    same payload behind header and envelope get the same answer. *)
Theorem parseGpkgGeom_ignores_skipped_bytes (b0 b1 v v' flags : byte)
    (skip skip' payload : list byte) (n : nat) :
  envelope_size (envelope_indicator flags) = Ok n →
  length skip = (4 + n)%nat → length skip' = (4 + n)%nat →
  parseGpkgGeom Unmarshal (b0 :: b1 :: v :: flags :: skip ++ payload)
  = parseGpkgGeom Unmarshal (b0 :: b1 :: v' :: flags :: skip' ++ payload).
Proof.
  intros Hn Hs Hs'. rewrite !parseGpkgGeom_cons, Hn.
  rewrite !length_app, Hs, Hs'.
  by rewrite !drop_app_length'.
Qed.

(** X11: the envelope indicator is the number in bits 1 to 3 of the
    flags byte; the byte order bit and the upper four bits play no
    part.  A blob of at least four bytes that passes the header test
    and whose indicator is none of 1, 2, 3, 4 is refused with the
    envelope error that names the indicator, however short the rest of
    the blob is. *)
Theorem parseGpkgGeom_envelope_error (b0 b1 v flags : byte) (rest : list byte) :
  let ind := ((Byte.to_N flags / 2) mod 8)%N in
  b0 = "G"%byte ∨ b1 = "P"%byte →
  ind ∉ [1; 2; 3; 4]%N →
  parseGpkgGeom Unmarshal (b0 :: b1 :: v :: flags :: rest)
  = Err ("invalid envelope type: " +:+ pretty ind).
Proof.
  intros ind Hhdr Hind. apply header_passes in Hhdr.
  rewrite parseGpkgGeom_cons, Hhdr, envelope_indicator_div_mod.
  fold ind. rewrite envelope_size_cases.
  rewrite !elem_of_cons, elem_of_nil in Hind.
  repeat case_decide; tauto.
Qed.

(** X12: when a blob of at least four bytes makes the parser panic
    (the WKB decoder taken not to panic itself): exactly when it
    passes the header test, its indicator is one of 1, 2, 3, 4 and
    fewer bytes follow the flags than the four SRS bytes and the
    envelope take. *)
Theorem parseGpkgGeom_panic_iff (b0 b1 v flags : byte) (rest : list byte) :
  (∀ payload p, Unmarshal payload ≠ Panic p) →
  (∃ p, parseGpkgGeom Unmarshal (b0 :: b1 :: v :: flags :: rest) = Panic p)
  ↔ (b0 = "G"%byte ∨ b1 = "P"%byte) ∧
    ∃ n, envelope_size (envelope_indicator flags) = Ok n
         ∧ (length rest < 4 + n)%nat.
Proof.
  intros Hwkb. rewrite parseGpkgGeom_cons, <- header_passes.
  destruct (negb _ && negb _)%bool.
  { split; [by intros [p ?] | by intros [? _]]. }
  destruct (envelope_size _) as [n|msg|p0] eqn:Hn.
  - destruct (Nat.leb_spec (4 + n) (length rest)) as [Hle|Hlt].
    + split; [intros [p Hp]; by apply Hwkb in Hp|].
      intros [_ (n' & [= <-] & ?)]. lia.
    + split; [|by eauto]. intros _. split; [done|]. eauto.
  - split; [by intros [p ?] | by intros [_ (n & ? & _)]].
  - split; [|by intros [_ (n & ? & _)]]. intros _.
    rewrite envelope_size_cases in Hn. by repeat case_decide.
Qed.


End gpkg_geom_further.

Lemma toy_Unmarshal_no_panic (payload : list byte) (p : panic) :
  toy_Unmarshal payload ≠ Panic p.
Proof.
  unfold toy_Unmarshal. destruct payload as [|b ?]; [done|].
  destruct (Byte.eqb b x01); [done|]. by destruct (Byte.eqb b x02).
Qed.

Lemma parseGpkgGeom_ignores_skipped_bytes_witness :
  parseGpkgGeom toy_Unmarshal
    ("G" :: "P" :: x00 :: x03 :: skipped_zero ++ [x02])%byte
  = parseGpkgGeom toy_Unmarshal
      ("G" :: "P" :: x07 :: x03 :: skipped_ones ++ [x02])%byte.
Proof.
  apply (parseGpkgGeom_ignores_skipped_bytes toy_Unmarshal
           "G" "P" x00 x07 x03 skipped_zero skipped_ones [x02] 32);
    reflexivity.
Defined.

Lemma parseGpkgGeom_envelope_error_witness :
  parseGpkgGeom toy_Unmarshal ["G"; "P"; x00; x0b]%byte
  = Err "invalid envelope type: 5".
Proof.
  apply (parseGpkgGeom_envelope_error toy_Unmarshal "G" "P" x00 x0b []).
  - by left.
  - apply (bool_decide_eq_false_1
             ((Byte.to_N x0b / 2) mod 8 ∈ [1; 2; 3; 4])%N).
    vm_compute. reflexivity.
Defined.

Lemma parseGpkgGeom_panic_iff_witness :
  (∃ p, parseGpkgGeom toy_Unmarshal ["G"; "P"; x00; x03; xe6; x10]%byte = Panic p)
  ↔ ("G" = "G" ∨ "P" = "P")%byte ∧
    ∃ n, envelope_size (envelope_indicator x03) = Ok n
         ∧ (length [xe6; x10]%byte < 4 + n)%nat.
Proof.
  apply (parseGpkgGeom_panic_iff toy_Unmarshal "G" "P" x00 x03 [xe6; x10]).
  exact toy_Unmarshal_no_panic.
Defined.


(** ** Reading rows and writing entities *)

Section conversion_properties.

Variable Unmarshal : list byte → result geomT.
Variable WriteEntity : Entity → result unit.

Lemma getResults_from_acc (l : ExportLayer) (rows : list TableRow)
    (res : list Feature.t) :
  getResults_from Unmarshal l rows res
  = match getResults_from Unmarshal l rows [] with
    | Ok fs => Ok (res ++ fs)%list
    | Err msg => Err msg
    | Panic p => Panic p
    end.
Proof.
  revert res. induction rows as [|row rows IH]; intros res; simpl.
  - by rewrite app_nil_r.
  - destruct (eval_tags _ row) as [tags|]; [|apply IH].
    destruct (length (row_geom row) =? 0)%nat; [apply IH|].
    destruct (parseGpkgGeom Unmarshal (row_geom row)) as [g| |]; try apply IH; [|done].
    rewrite IH, (IH [_]).
    destruct (getResults_from Unmarshal l rows []); try done.
    by rewrite <- app_assoc.
Qed.

(** One turn of the loop of [getResults]. *)
Lemma getResults_cons (l : ExportLayer) (row : TableRow) (rows : list TableRow) :
  getResults Unmarshal l (row :: rows)
  = match rowTags l row with
    | None => getResults Unmarshal l rows
    | Some tags =>
        if decide (row_geom row = []) then getResults Unmarshal l rows
        else match parseGpkgGeom Unmarshal (row_geom row) with
             | Ok g =>
                 match getResults Unmarshal l rows with
                 | Ok fs => Ok (Feature.mk l tags g :: fs)
                 | Err msg => Err msg
                 | Panic p => Panic p
                 end
             | Err _ => getResults Unmarshal l rows
             | Panic p => Panic p
             end
    end.
Proof.
  unfold getResults, rowTags, scan. simpl.
  destruct (eval_tags _ row) as [tags|]; [|done].
  destruct (row_geom row) as [|b geo] eqn:Hgeo; simpl; [done|].
  destruct (parseGpkgGeom Unmarshal (b :: geo)) as [g| |]; try done.
  by rewrite getResults_from_acc.
Qed.

Lemma getResults_sound (l : ExportLayer) (rows : list TableRow)
    (fs : list Feature.t) (f : Feature.t) :
  getResults Unmarshal l rows = Ok fs → f ∈ fs →
  Feature.Layer f = l ∧
  ∃ row, row ∈ rows ∧ rowTags l row = Some (Feature.Tags f) ∧
         row_geom row ≠ [] ∧
         parseGpkgGeom Unmarshal (row_geom row) = Ok (Feature.G f).
Proof.
  revert fs. induction rows as [|row rows IH]; intros fs.
  - intros [= <-] Hf. by apply elem_of_nil in Hf.
  - rewrite getResults_cons.
    assert (∀ fs', getResults Unmarshal l rows = Ok fs' → f ∈ fs' →
              Feature.Layer f = l ∧
              ∃ row0, row0 ∈ row :: rows ∧ rowTags l row0 = Some (Feature.Tags f) ∧
                row_geom row0 ≠ [] ∧
                parseGpkgGeom Unmarshal (row_geom row0) = Ok (Feature.G f)) as Hrest.
    { intros fs' Hfs' Hf. destruct (IH fs' Hfs' Hf) as (? & row0 & ? & ?).
      split; [done|]. exists row0. split; [by right | done]. }
    destruct (rowTags l row) as [tags|] eqn:Htags; [|by apply Hrest].
    destruct (decide (row_geom row = [])) as [|Hgeo]; [by apply Hrest|].
    destruct (parseGpkgGeom Unmarshal (row_geom row)) as [g| |] eqn:Hg;
      [|by apply Hrest|done].
    destruct (getResults Unmarshal l rows) as [fs'| |]; [|done..].
    intros [= <-] [->|Hf]%elem_of_cons; [|by eapply Hrest].
    split; [done|]. exists row. split; [by left | done].
Qed.



Lemma writeFeature_entity (f : Feature.t) (e : Entity) :
  e ∈ writeFeature f →
  is_line_or_polygon (Feature.G f) = true ∧
  e = mkEntity WayKind 1 (Some (Feature.G f)) (Feature.Tags f).
Proof.
  unfold writeFeature.
  destruct (Feature.G f); simpl; intros He;
    first [by apply elem_of_nil in He | by apply list_elem_of_singleton in He].
Qed.

Lemma writeResults_elem (fs : list Feature.t) (e : Entity) :
  e ∈ writeResults fs ↔ ∃ f, f ∈ fs ∧ e ∈ writeFeature f.
Proof.
  unfold writeResults. rewrite list_elem_of_In, in_flat_map.
  split; intros (f & Hf & He); exists f; by rewrite ?list_elem_of_In in *.
Qed.

(** The entities the inner loop hands to the writer for a list of
    features: one way with identifier 1 for each feature whose
    geometry is a line or polygon kind, in the order of the
    features. *)
Lemma writeResults_map_filter (results : list Feature.t) :
  writeResults results
  = (λ r, mkEntity WayKind 1 (Some (Feature.G r)) (Feature.Tags r))
    <$> filter (λ r, is_line_or_polygon (Feature.G r) = true) results.
Proof.
  induction results as [|r results IH]; [done|].
  unfold writeResults in *. simpl. rewrite IH. unfold writeFeature.
  destruct (Feature.G r) eqn:Hg; simpl;
    first [ rewrite filter_cons_True by (by rewrite Hg); by rewrite fmap_cons, Hg
          | by rewrite filter_cons_False by (by rewrite Hg) ].
Qed.

Lemma writeEntities_acc (es written : list Entity) :
  writeEntities WriteEntity es written
  = ((written ++ (writeEntities WriteEntity es []).1)%list,
     (writeEntities WriteEntity es []).2).
Proof.
  revert written. induction es as [|e es IH]; intros written; simpl.
  - by rewrite app_nil_r.
  - destruct (WriteEntity e) as [u|msg|p]; simpl.
    + rewrite IH, (IH [e]). simpl. by rewrite <- app_assoc.
    + apply IH.
    + by rewrite app_nil_r.
Qed.

Lemma writeEntities_elem (es : list Entity) (e : Entity) :
  e ∈ (writeEntities WriteEntity es []).1 → e ∈ es.
Proof.
  induction es as [|e0 es IH]; simpl.
  - intros He. by apply elem_of_nil in He.
  - destruct (WriteEntity e0) as [u|msg|p]; simpl.
    + rewrite writeEntities_acc. simpl.
      intros [->|He]%elem_of_cons; [by left | right; by apply IH].
    + intros He. right. by apply IH.
    + intros He. by apply elem_of_nil in He.
Qed.

Lemma writeEntities_accepted (es : list Entity) :
  Forall (λ e, ∃ u, WriteEntity e = Ok u) es →
  writeEntities WriteEntity es [] = (es, None).
Proof.
  induction 1 as [|e es [u He] _ IH]; simpl; [done|].
  rewrite He, writeEntities_acc, IH. done.
Qed.

(** X15: when the writer accepts every entity it is handed for a list
    of features, the inner loop writes one way with identifier 1 for
    each feature whose geometry is a line or polygon kind, carrying
    that feature's geometry and tags, in the order of the features,
    and nothing for any other feature. *)
Theorem writeEntities_ways (results : list Feature.t) :
  Forall (λ e, ∃ u, WriteEntity e = Ok u) (writeResults results) →
  writeEntities WriteEntity (writeResults results) []
  = ((λ r, mkEntity WayKind 1 (Some (Feature.G r)) (Feature.Tags r))
       <$> filter (λ r, is_line_or_polygon (Feature.G r) = true) results,
     None).
Proof.
  intros Hok. rewrite (writeEntities_accepted _ Hok).
  by rewrite writeResults_map_filter.
Qed.

Lemma convert_acc (tables : list (ExportLayer * list TableRow))
    (written : list Entity) :
  convert Unmarshal WriteEntity tables written
  = ((written ++ (convert Unmarshal WriteEntity tables []).1)%list,
     (convert Unmarshal WriteEntity tables []).2).
Proof.
  revert written. induction tables as [|[l rows] tables IH]; intros written; simpl.
  - by rewrite app_nil_r.
  - destruct (getResults Unmarshal l rows) as [fs| |]; simpl.
    + rewrite writeEntities_acc.
      destruct (writeEntities WriteEntity (writeResults fs) []) as [w [p|]]; simpl.
      * done.
      * rewrite IH, (IH w). simpl. by rewrite <- app_assoc.
    + apply IH.
    + by rewrite app_nil_r.
Qed.

Lemma convert_cons (l : ExportLayer) (rows : list TableRow)
    (tables : list (ExportLayer * list TableRow)) :
  convert Unmarshal WriteEntity ((l, rows) :: tables) []
  = match getResults Unmarshal l rows with
    | Ok fs =>
        match writeEntities WriteEntity (writeResults fs) [] with
        | (accepted, None) =>
            ((accepted ++ (convert Unmarshal WriteEntity tables []).1)%list,
             (convert Unmarshal WriteEntity tables []).2)
        | (accepted, Some p) => (accepted, Some p)
        end
    | Err _ => convert Unmarshal WriteEntity tables []
    | Panic p => ([], Some p)
    end.
Proof.
  simpl. destruct (getResults Unmarshal l rows); try done.
  destruct (writeEntities WriteEntity (writeResults a) []) as [w [p|]]; [done|].
  by rewrite convert_acc.
Qed.

Lemma convert_elem (tables : list (ExportLayer * list TableRow)) (e : Entity) :
  e ∈ (convert Unmarshal WriteEntity tables []).1 →
  ∃ l rows fs, (l, rows) ∈ tables ∧ getResults Unmarshal l rows = Ok fs
               ∧ e ∈ writeResults fs.
Proof.
  induction tables as [|[l rows] tables IH].
  - intros He. by apply elem_of_nil in He.
  - rewrite convert_cons.
    assert (e ∈ (convert Unmarshal WriteEntity tables []).1 →
            ∃ l0 rows0 fs, (l0, rows0) ∈ (l, rows) :: tables
              ∧ getResults Unmarshal l0 rows0 = Ok fs ∧ e ∈ writeResults fs) as Hrest.
    { intros (l0 & rows0 & fs & Hin & ?)%IH. exists l0, rows0, fs.
      split; [by right | done]. }
    destruct (getResults Unmarshal l rows) as [fs| |] eqn:Hfs; simpl.
    + assert (e ∈ (writeEntities WriteEntity (writeResults fs) []).1 →
              ∃ l0 rows0 fs0, (l0, rows0) ∈ (l, rows) :: tables
                ∧ getResults Unmarshal l0 rows0 = Ok fs0 ∧ e ∈ writeResults fs0)
        as Hhere.
      { intros He%writeEntities_elem. exists l, rows, fs. split; [by left | done]. }
      destruct (writeEntities WriteEntity (writeResults fs) []) as [w [p|]];
        simpl in *; [done|].
      intros [He|He]%elem_of_app; [by apply Hhere | by apply Hrest].
    + done.
    + intros He. by apply elem_of_nil in He.
Qed.

(** X16: whatever the layers, the rows and the writer, a run writes no
    node and no relation, and every entity it writes is a way with
    identifier 1. *)
Theorem convert_writes_only_ways (tables : list (ExportLayer * list TableRow)) :
  Forall (λ e, ent_kind e = WayKind ∧ ent_id e = 1)
    (convert Unmarshal WriteEntity tables []).1 ∧
  count_kind NodeKind (convert Unmarshal WriteEntity tables []).1 = 0%nat ∧
  count_kind RelationKind (convert Unmarshal WriteEntity tables []).1 = 0%nat.
Proof.
  assert (Forall (λ e, ent_kind e = WayKind ∧ ent_id e = 1)
            (convert Unmarshal WriteEntity tables []).1) as Hways.
  { apply Forall_forall. intros e (l & rows & fs & _ & _ & He)%convert_elem.
    apply writeResults_elem in He as (f & _ & He).
    by apply writeFeature_entity in He as [_ ->]. }
  split; [done|]. unfold count_kind.
  induction Hways as [|e out [He _] _ [IHn IHr]]; [done|].
  rewrite !filter_cons_False by (rewrite He; discriminate). done.
Qed.

(** X17: where a written entity comes from: some row of some layer's
    table has non-NULL tags and a blob that the parser turned into a
    line or polygon geometry; the entity carries exactly these tags
    and this geometry. *)
Theorem convert_entity_origin (tables : list (ExportLayer * list TableRow))
    (e : Entity) :
  e ∈ (convert Unmarshal WriteEntity tables []).1 →
  ∃ l rows row g,
    (l, rows) ∈ tables ∧ row ∈ rows ∧
    rowTags l row = Some (ent_tags e) ∧
    parseGpkgGeom Unmarshal (row_geom row) = Ok g ∧
    is_line_or_polygon g = true ∧ ent_geometry e = Some g.
Proof.
  intros (l & rows & fs & Hin & Hfs & He)%convert_elem.
  apply writeResults_elem in He as (f & Hf & He).
  apply writeFeature_entity in He as [Hkind ->].
  destruct (getResults_sound l rows fs f Hfs Hf) as (_ & row & Hrow & Htags & _ & Hg).
  by exists l, rows, row, (Feature.G f).
Qed.


End conversion_properties.


Lemma toy_WriteEntity_accepts_string_tags :
  Forall (λ e, ∃ u, toy_WriteEntity e = Ok u)
    (writeResults [tracks_feature; places_feature; trails_feature]).
Proof. repeat constructor; by exists (). Qed.

Lemma writeEntities_ways_witness :
  writeEntities toy_WriteEntity
    (writeResults [tracks_feature; places_feature; trails_feature]) []
  = ([mkEntity WayKind 1 (Some (Feature.G tracks_feature)) (name_tag "A1");
      mkEntity WayKind 1 (Some (Feature.G trails_feature)) (name_tag "A3")],
     None).
Proof.
  rewrite (writeEntities_ways toy_WriteEntity
             [tracks_feature; places_feature; trails_feature]
             toy_WriteEntity_accepts_string_tags).
  reflexivity.
Defined.

Lemma convert_entity_origin_witness :
  line_way
  ∈ (convert toy_Unmarshal toy_WriteEntity
       [(json_layer, [line_row; empty_blob_row])] []).1 ∧
  ∃ l rows row g,
    (l, rows) ∈ [(json_layer, [line_row; empty_blob_row])] ∧ row ∈ rows ∧
    rowTags l row = Some (ent_tags line_way) ∧
    parseGpkgGeom toy_Unmarshal (row_geom row) = Ok g ∧
    is_line_or_polygon g = true ∧ ent_geometry line_way = Some g.
Proof.
  assert (line_way
          ∈ (convert toy_Unmarshal toy_WriteEntity
               [(json_layer, [line_row; empty_blob_row])] []).1)
    as Hin.
  { change (line_way ∈ [line_way]). left. }
  split; [exact Hin|].
  exact (convert_entity_origin toy_Unmarshal toy_WriteEntity _ _ Hin).
Defined.


(** ** The command line and the log line *)

Lemma string_length_app (a b : string) :
  String.length (a +:+ b) = (String.length a + String.length b)%nat.
Proof. induction a as [|c a IH]; simpl; [done | by rewrite IH]. Qed.

Lemma string_from_app (a b : string) :
  string_from (String.length a) (a +:+ b) = b.
Proof. induction a as [|c a IH]; simpl; [by destruct b | done]. Qed.

Lemma string_from_split (n : nat) (s : string) :
  (n ≤ String.length s)%nat →
  ∃ pre, s = pre +:+ string_from n s ∧ String.length pre = n.
Proof.
  revert s. induction n as [|n IH]; intros s Hn.
  - by exists "".
  - destruct s as [|c s]; simpl in *; [lia|].
    destruct (IH s ltac:(lia)) as (pre & Hs & Hlen).
    exists (String c pre). split; [|simpl; by rewrite Hlen].
    change (String c s = String c (pre +:+ string_from n s)). by rewrite <- Hs.
Qed.

Lemma HasSuffix_spec (s suffix : string) :
  HasSuffix s suffix = true ↔ ∃ pre, s = pre +:+ suffix.
Proof.
  unfold HasSuffix. rewrite andb_true_iff, Nat.leb_le, String.eqb_eq. split.
  - intros [Hlen Hfrom].
    destruct (string_from_split (String.length s - String.length suffix) s
                ltac:(lia)) as (pre & Hs & _).
    exists pre. by rewrite <- Hfrom.
  - intros [pre ->]. rewrite string_length_app. split; [lia|].
    replace (String.length pre + String.length suffix - String.length suffix)%nat
      with (String.length pre) by lia.
    apply string_from_app.
Qed.

Lemma string_app_inv_suffix (a a' b b' : string) :
  a +:+ b = a' +:+ b' → String.length b = String.length b' → b = b'.
Proof.
  revert a'. induction a as [|c a IH]; intros a' Heq Hlen.
  - destruct a' as [|c' a']; [done|].
    apply (f_equal String.length) in Heq.
    rewrite !string_length_app in Heq. simpl in Heq. lia.
  - destruct a' as [|c' a'].
    + apply (f_equal String.length) in Heq.
      rewrite !string_length_app in Heq. simpl in Heq. lia.
    + change (String c (a +:+ b) = String c' (a' +:+ b')) in Heq.
      injection Heq as _ Heq. by eapply IH.
Qed.

(** X20: an output name whose last four bytes read ".pbf" in any mix of
    upper and lower case is accepted, and the conversion writes to the
    file under the name as given; further arguments are not looked
    at. *)
Theorem pbf_output_is_accepted (input stem ext : string) (more : list string) :
  strings.ToLower ext = ".pbf" →
  main_args (input :: (stem +:+ ext) :: more)
  = Convert input (File (stem +:+ ext)).
Proof.
  intros Hext. unfold main_args.
  assert (String.length ext = 4%nat) as Hlen.
  { destruct ext as [|? [|? [|? [|? [|? ?]]]]]; by simpl in Hext. }
  assert (String.eqb (stem +:+ ext) "-" = false) as ->.
  { apply String.eqb_neq. intros Heq.
    apply (f_equal String.length) in Heq.
    rewrite string_length_app, Hlen in Heq. simpl in Heq. lia. }
  assert (HasSuffix (strings.ToLower (stem +:+ ext)) ".pbf" = true) as ->; [|done].
  apply HasSuffix_spec. exists (strings.ToLower stem).
  by rewrite ToLower_app, Hext.
Qed.

(** X21: an output name that ends in ".xml" (in any mix of upper and
    lower case) is refused with the extension error, although the
    usage text offers XML output. *)
Theorem xml_output_is_refused (input out : string) (more : list string) :
  HasSuffix (strings.ToLower out) ".xml" = true →
  main_args (input :: out :: more) = ExitInvalidExtension out.
Proof.
  intros Hxml. unfold main_args.
  destruct (String.eqb_spec out "-") as [->|_]; [done|].
  destruct (HasSuffix (strings.ToLower out) ".pbf") eqn:Hpbf; [|done].
  apply HasSuffix_spec in Hxml as [pre Hxml].
  apply HasSuffix_spec in Hpbf as [pre' Hpbf].
  rewrite Hxml in Hpbf. by apply string_app_inv_suffix in Hpbf.
Qed.

Lemma string_app_assoc (a b c : string) :
  (a +:+ b) +:+ c = a +:+ (b +:+ c).
Proof.
  induction a as [|x a IH]; [done|].
  change (String x ((a +:+ b) +:+ c) = String x (a +:+ (b +:+ c))).
  by rewrite IH.
Qed.

Lemma Join_snoc (elems : list string) (e sep : string) :
  elems ≠ [] →
  strings.Join (elems ++ [e]) sep = strings.Join elems sep +:+ sep +:+ e.
Proof.
  induction elems as [|a [|b elems] IH]; intros Hne; [done|done|].
  specialize (IH ltac:(done)).
  change (strings.Join ((a :: b :: elems) ++ [e]) sep)
    with (a +:+ sep +:+ strings.Join ((b :: elems) ++ [e]) sep).
  change (strings.Join (a :: b :: elems) sep)
    with (a +:+ sep +:+ strings.Join (b :: elems) sep).
  rewrite IH. by rewrite !string_app_assoc.
Qed.

(** X22: the column list logged for a layer is its tag columns followed
    by "osm_tags" when it has the JSON column, and followed by an empty
    entry when it has not, so that the logged text of a layer with tag
    columns only ends in a comma. *)
Theorem layerCols_cases (layer : ExportLayer) :
  (OSMJsonField layer = true →
     layerCols layer = (Tags layer ++ ["osm_tags"])%list) ∧
  (OSMJsonField layer = false →
     layerCols layer = (Tags layer ++ [""])%list ∧
     (Tags layer ≠ [] →
        layerColsText layer = strings.Join (Tags layer) "," +:+ ",")).
Proof.
  assert (drop (length (Tags layer)) (replicate (length (Tags layer) + 1) "")
          = [""]) as Hdrop.
  { rewrite drop_replicate.
    by replace (length (Tags layer) + 1 - length (Tags layer))%nat with 1%nat by lia. }
  unfold layerColsText, layerCols. rewrite Hdrop. split; intros ->.
  - rewrite <- (Nat.add_0_r (length (Tags layer))) at 1.
    by rewrite insert_app_r.
  - split; [done|]. intros Hne. by rewrite Join_snoc.
Qed.

Lemma pbf_output_is_accepted_witness :
  main_args ["roads.gpkg"; "Roads.OSM.PBF"]
  = Convert "roads.gpkg" (File "Roads.OSM.PBF").
Proof.
  apply (pbf_output_is_accepted "roads.gpkg" "Roads.OSM" ".PBF" []).
  reflexivity.
Defined.

Lemma xml_output_is_refused_witness :
  main_args ["roads.gpkg"; "roads.osm.xml"]
  = ExitInvalidExtension "roads.osm.xml".
Proof. apply xml_output_is_refused. reflexivity. Defined.
